(** * Power configuration of the STM32H7 PWR unit (src/pwr.rs)

    A shallow embedding of the [Pwr] builder and of [Pwr::freeze].  The
    peripheral registers are a record of the fields that [pwr.rs] touches,
    split into the fields software writes ([Ctl]) and the read-only status
    flags the hardware drives ([Status]).  Register accesses go through a
    small state/trace/error monad: every access is logged as an event, a
    failed [assert!] or [unimplemented!] is a panic, and a busy-wait loop
    is run with a fuel bound (running out of fuel models a loop that keeps
    spinning).  The hardware is a parameter: [hw_write] is what a register
    latches when software writes a value to it, [hw_tick] is how the
    status flags evolve between two iterations of a polling loop. *)

From Stdlib Require Import Bool ZArith List String Lia.
Import ListNotations.
Open Scope Z_scope.

(** ** Build-time configuration (Cargo features) *)

Inductive family := RM0433 | RM0399 | RM0455 | RM0468.

(** [feature = "smps"] and [feature = "revision_v"] together with the
    selected reference-manual family. *)
Record Variant := mkVariant {
  fam : family;
  feature_smps : bool;
  feature_revision_v : bool
}.

Definition family_eqb (a b : family) : bool :=
  match a, b with
  | RM0433, RM0433 | RM0399, RM0399 | RM0455, RM0455 | RM0468, RM0468 => true
  | _, _ => false
  end.

(** [compile_error!] for SMPS on RM0433 parts. *)
Definition variant_compiles (v : Variant) : bool :=
  negb (family_eqb (fam v) RM0433 && feature_smps v).

(** [cfg(all(feature = "revision_v", any(rm0433, rm0399)))]: overdrive path. *)
Definition has_overdrive (v : Variant) : bool :=
  feature_revision_v v && (family_eqb (fam v) RM0433 || family_eqb (fam v) RM0399).

(** [cfg(all(feature = "revision_v", feature = "rm0468"))]. *)
Definition has_vos0_transition (v : Variant) : bool :=
  feature_revision_v v && family_eqb (fam v) RM0468.

(** The builder method [vos0] exists under
    [cfg(all(revision_v, any(rm0433, rm0399, rm0468)))]. *)
Definition has_vos0_method (v : Variant) : bool :=
  has_overdrive v || has_vos0_transition v.

(** ** Data types of pwr.rs *)

Inductive VoltageScale := Scale0 | Scale1 | Scale2 | Scale3.

Definition VoltageScale_eqb (a b : VoltageScale) : bool :=
  match a, b with
  | Scale0, Scale0 | Scale1, Scale1 | Scale2, Scale2 | Scale3, Scale3 => true
  | _, _ => false
  end.

Inductive SupplyConfiguration :=
  | Default
  | LDOSupply
  | DirectSMPS
  | SMPSFeedsIntoLDO1V8
  | SMPSFeedsIntoLDO2V5
  | Bypass.

(** [BackupREC::new_singleton(enabled)]: an opaque handle, recorded with
    the flag it is created with. *)
Record BackupREC := new_singleton { backup_enabled : bool }.

(** The builder [Pwr] (the register block [rb] is the register file the
    monad threads).  [supply_configuration] only exists with
    [feature = "smps"]; it is ignored otherwise. *)
Record Pwr := mkPwr {
  supply_configuration : SupplyConfiguration;
  target_vos : VoltageScale;
  backup_regulator : bool
}.

Record PowerConfiguration := mkPowerConfiguration {
  pc_vos : VoltageScale;
  pc_backup : option BackupREC
}.

(** [PowerConfiguration::vos]. *)
Definition vos (p : PowerConfiguration) : VoltageScale := pc_vos p.

(** [PowerConfiguration::backup(&mut self)]: [self.backup.take()]; the
    mutated [self] is returned alongside. *)
Definition backup (p : PowerConfiguration) : option BackupREC * PowerConfiguration :=
  (pc_backup p, mkPowerConfiguration (pc_vos p) None).

(** [PwrExt::constrain]. *)
Definition constrain : Pwr := mkPwr Default Scale1 false.

(** Builder methods ([supply_configuration_setter!], [vos0] .. [vos3],
    [backup_regulator]). *)
Module Builder.
Definition set_supply (c : SupplyConfiguration) (p : Pwr) : Pwr :=
  mkPwr c (target_vos p) (backup_regulator p).
Definition set_vos (s : VoltageScale) (p : Pwr) : Pwr :=
  mkPwr (supply_configuration p) s (backup_regulator p).
Definition enable_backup (p : Pwr) : Pwr :=
  mkPwr (supply_configuration p) (target_vos p) true.
Definition ldo := set_supply LDOSupply.
Definition smps := set_supply DirectSMPS.
Definition bypass := set_supply Bypass.
Definition smps_1v8_feeds_ldo := set_supply SMPSFeedsIntoLDO1V8.
Definition smps_2v5_feeds_ldo := set_supply SMPSFeedsIntoLDO2V5.
Definition vos0 := set_vos Scale0.
Definition vos1 := set_vos Scale1.
Definition vos2 := set_vos Scale2.
Definition vos3 := set_vos Scale3.
Definition backup_regulator := enable_backup.
End Builder.

(** ** The register file *)

(** Lower byte of PWR.CR3 (SDEN is SMPSEN and SDLEVEL is SMPSLEVEL on
    RM0455, see the [smps_en!] and [smps_level!] macros). *)
Record CR3 := mkCR3 {
  bypass : bool;
  ldoen : bool;
  sden : bool;
  sdlevel : Z;
  scuen : bool
}.

Record Ctl := mkCtl {
  cr1_dbp : bool;
  cr2_bren : bool;
  cr3 : CR3;
  d3cr_vos : Z;
  syscfg_pwrcr_oden : Z;
  rcc_apb4enr_syscfgen : bool
}.

Record Status := mkStatus {
  d3cr_vosrdy : bool;
  csr1_actvos : Z;
  csr1_actvosrdy : bool;
  cr2_brrdy : bool
}.

Record RegFile := mkRegFile { ctl : Ctl; status : Status }.

Inductive reg := CR1 | CR2 | PWR_CR3 | D3CR | CSR1 | SYSCFG_PWRCR | RCC_APB4ENR.

Definition reg_eqb (a b : reg) : bool :=
  match a, b with
  | CR1, CR1 | CR2, CR2 | PWR_CR3, PWR_CR3 | D3CR, D3CR | CSR1, CSR1
  | SYSCFG_PWRCR, SYSCFG_PWRCR | RCC_APB4ENR, RCC_APB4ENR => true
  | _, _ => false
  end.

(** A read of a register, or a write with the control fields software
    puts on the bus (the register's new value, the others as they were). *)
Inductive event :=
  | EvRead (r : reg)
  | EvWrite (r : reg) (c : Ctl).

Record Hw := mkHw {
  hw_write : reg -> Ctl -> Ctl -> Ctl;
  hw_tick : RegFile -> Status
}.

(** A register file that faithfully reflects writes. *)
Definition faithful (hw : Hw) : Prop :=
  forall r old new, hw_write hw r old new = new.

(** Field updates. *)
Definition set_cr3 (f : CR3 -> CR3) (c : Ctl) : Ctl :=
  mkCtl (cr1_dbp c) (cr2_bren c) (f (cr3 c)) (d3cr_vos c)
        (syscfg_pwrcr_oden c) (rcc_apb4enr_syscfgen c).
Definition set_dbp (b : bool) (c : Ctl) : Ctl :=
  mkCtl b (cr2_bren c) (cr3 c) (d3cr_vos c) (syscfg_pwrcr_oden c) (rcc_apb4enr_syscfgen c).
Definition set_bren (b : bool) (c : Ctl) : Ctl :=
  mkCtl (cr1_dbp c) b (cr3 c) (d3cr_vos c) (syscfg_pwrcr_oden c) (rcc_apb4enr_syscfgen c).
Definition set_d3cr_vos (z : Z) (c : Ctl) : Ctl :=
  mkCtl (cr1_dbp c) (cr2_bren c) (cr3 c) z (syscfg_pwrcr_oden c) (rcc_apb4enr_syscfgen c).
Definition set_oden (z : Z) (c : Ctl) : Ctl :=
  mkCtl (cr1_dbp c) (cr2_bren c) (cr3 c) (d3cr_vos c) z (rcc_apb4enr_syscfgen c).
Definition set_syscfgen (b : bool) (c : Ctl) : Ctl :=
  mkCtl (cr1_dbp c) (cr2_bren c) (cr3 c) (d3cr_vos c) (syscfg_pwrcr_oden c) b.

Definition set_sden (b : bool) (r : CR3) : CR3 :=
  mkCR3 (bypass r) (ldoen r) b (sdlevel r) (scuen r).
Definition set_ldoen (b : bool) (r : CR3) : CR3 :=
  mkCR3 (bypass r) b (sden r) (sdlevel r) (scuen r).
Definition set_bypass (b : bool) (r : CR3) : CR3 :=
  mkCR3 b (ldoen r) (sden r) (sdlevel r) (scuen r).
Definition set_sdlevel (z : Z) (r : CR3) : CR3 :=
  mkCR3 (bypass r) (ldoen r) (sden r) z (scuen r).
Definition set_scuen (b : bool) (r : CR3) : CR3 :=
  mkCR3 (bypass r) (ldoen r) (sden r) (sdlevel r) b.

(** ** Register accesses: a state, trace and panic monad *)

Inductive outcome (A : Type) :=
  | Done (a : A) (rf : RegFile) (tr : list event)
  | Panic (msg : string) (rf : RegFile) (tr : list event)
  | Spin (rf : RegFile) (tr : list event).
Arguments Done {A}.
Arguments Panic {A}.
Arguments Spin {A}.

Definition M (A : Type) := RegFile -> outcome A.

Definition prepend {A} (tr : list event) (o : outcome A) : outcome A :=
  match o with
  | Done a rf tr' => Done a rf (tr ++ tr')
  | Panic m rf tr' => Panic m rf (tr ++ tr')
  | Spin rf tr' => Spin rf (tr ++ tr')
  end.

Definition ret {A} (a : A) : M A := fun rf => Done a rf [].

Definition bind {A B} (m : M A) (k : A -> M B) : M B :=
  fun rf =>
    match m rf with
    | Done a rf1 tr1 => prepend tr1 (k a rf1)
    | Panic msg rf1 tr1 => Panic msg rf1 tr1
    | Spin rf1 tr1 => Spin rf1 tr1
    end.

Notation "x <- m ;; k" := (bind m (fun x => k))
  (at level 61, m at next level, right associativity).
Notation "m ;; k" := (bind m (fun _ => k))
  (at level 61, right associativity).

Definition panic {A} (msg : string) : M A := fun rf => Panic msg rf [].

(** [assert!(b, "{}", msg)]. *)
Definition assert (b : bool) (msg : string) : M unit :=
  if b then ret tt else panic msg.

Section Machine.
Variable hw : Hw.
(** Bound on the iterations of one busy-wait loop. *)
Variable fuel : nat.

(** [reg.read().field()]. *)
Definition read {A} (r : reg) (field : RegFile -> A) : M A :=
  fun rf => Done (field rf) rf [EvRead r].

(** [reg.write(|w| ...)]: software puts [upd] of the control fields on
    the bus, the hardware latches [hw_write]. *)
Definition write (r : reg) (upd : Ctl -> Ctl) : M unit :=
  fun rf =>
    let new := upd (ctl rf) in
    Done tt (mkRegFile (hw_write hw r (ctl rf) new) (status rf)) [EvWrite r new].

(** [reg.modify(|r, w| ...)]: a read followed by a write. *)
Definition modify (r : reg) (upd : Ctl -> Ctl) : M unit :=
  read r (fun _ => tt) ;; write r upd.

Definition tick (rf : RegFile) : RegFile := mkRegFile (ctl rf) (hw_tick hw rf).

(** [while !cond {}]: each iteration evaluates [cond] (its register
    reads), and the hardware moves on between two iterations. *)
Fixpoint poll_loop (n : nat) (cond : M bool) : M unit :=
  fun rf =>
    match n with
    | O => Spin rf []
    | S n' =>
        match cond rf with
        | Done true rf1 tr => Done tt rf1 tr
        | Done false rf1 tr => prepend tr (poll_loop n' cond (tick rf1))
        | Panic msg rf1 tr => Panic msg rf1 tr
        | Spin rf1 tr => Spin rf1 tr
        end
    end.

Definition while_clear (cond : M bool) : M unit := poll_loop fuel cond.

(** ** pwr.rs, [impl Pwr] *)

Definition error : string :=
  "Values in lower byte of PWR.CR3 do not match the configured power mode. These values can only be set once for each POR (Power-on-Reset). Try removing power to your board.".

Definition cr3_field {A} (f : CR3 -> A) : M A := read PWR_CR3 (fun rf => f (cr3 (ctl rf))).

(** [Pwr::verify_supply_configuration]. *)
Definition verify_supply_configuration (p : Pwr) : M unit :=
  match supply_configuration p with
  | LDOSupply =>
      b <- cr3_field sden ;; assert (negb b) error ;;
      b <- cr3_field ldoen ;; assert b error
  | DirectSMPS =>
      b <- cr3_field sden ;; assert b error ;;
      b <- cr3_field ldoen ;; assert (negb b) error
  | SMPSFeedsIntoLDO1V8 =>
      b <- cr3_field sden ;; assert b error ;;
      b <- cr3_field ldoen ;; assert (negb b) error ;;
      l <- cr3_field sdlevel ;; assert (Z.eqb l 1) error
  | SMPSFeedsIntoLDO2V5 =>
      b <- cr3_field sden ;; assert b error ;;
      b <- cr3_field ldoen ;; assert (negb b) error ;;
      l <- cr3_field sdlevel ;; assert (Z.eqb l 2) error
  | Bypass =>
      b <- cr3_field sden ;; assert (negb b) error ;;
      b <- cr3_field ldoen ;; assert (negb b) error ;;
      b <- cr3_field bypass ;; assert b error
  | Default => ret tt
  end.

(** The [w.vos().bits(..)] encoding of each family; [None] is the
    [unimplemented!()] arm of RM0433/RM0399. *)
Definition vos_bits (v : Variant) (s : VoltageScale) : option Z :=
  match fam v with
  | RM0433 | RM0399 =>
      match s with
      | Scale3 => Some 1 | Scale2 => Some 2 | Scale1 => Some 3 | Scale0 => None
      end
  | RM0455 =>
      match s with
      | Scale3 => Some 0 | Scale2 => Some 1 | Scale1 => Some 2 | Scale0 => Some 3
      end
  | RM0468 =>
      match s with
      | Scale0 => Some 0 | Scale3 => Some 1 | Scale2 => Some 2 | Scale1 => Some 3
      end
  end.

Definition not_implemented : string := "not implemented".

(** [Pwr::voltage_scaling_transition]. *)
Definition voltage_scaling_transition (v : Variant) (new_scale : VoltageScale) : M unit :=
  match vos_bits v new_scale with
  | None => panic not_implemented
  | Some b =>
      write D3CR (set_d3cr_vos b) ;;
      while_clear (read D3CR (fun rf => d3cr_vosrdy (status rf)))
  end.

(** The closure passed to [self.rb.cr3.modify] in step 1 of [freeze]. *)
Definition cr3_supply_write (v : Variant) (c : SupplyConfiguration) (r : CR3) : CR3 :=
  if feature_smps v then
    match c with
    | LDOSupply => set_ldoen true (set_sden false r)
    | DirectSMPS => set_ldoen false (set_sden true r)
    | SMPSFeedsIntoLDO1V8 => set_sdlevel 1 (set_ldoen true (set_sden true r))
    | SMPSFeedsIntoLDO2V5 => set_sdlevel 2 (set_ldoen true (set_sden true r))
    | Bypass => set_bypass true (set_ldoen false (set_sden false r))
    | Default => r
    end
  else set_bypass false (set_ldoen true (set_scuen true r)).

Definition is_scale0 (s : VoltageScale) : bool := VoltageScale_eqb s Scale0.

(** [Pwr::freeze]. *)
Definition freeze (v : Variant) (p : Pwr) : M PowerConfiguration :=
  modify PWR_CR3 (set_cr3 (cr3_supply_write v (supply_configuration p))) ;;
  (if feature_smps v then verify_supply_configuration p else ret tt) ;;
  while_clear (read CSR1 (fun rf => csr1_actvosrdy (status rf))) ;;
  let vos := match target_vos p with Scale0 => Scale1 | x => x end in
  voltage_scaling_transition v vos ;;
  vos <- (if has_overdrive v && is_scale0 (target_vos p) then
            modify RCC_APB4ENR (set_syscfgen true) ;;
            (if feature_smps v then modify SYSCFG_PWRCR (set_oden 1)
             else modify SYSCFG_PWRCR (set_oden 1)) ;;
            while_clear (read D3CR (fun rf => d3cr_vosrdy (status rf))) ;;
            ret Scale0
          else ret vos) ;;
  vos <- (if has_vos0_transition v && is_scale0 (target_vos p) then
            let vos := Scale0 in
            voltage_scaling_transition v vos ;;
            while_clear (a <- read D3CR (fun rf => d3cr_vos (ctl rf)) ;;
                         b <- read CSR1 (fun rf => csr1_actvos (status rf)) ;;
                         ret (Z.eqb a b)) ;;
            while_clear (read CSR1 (fun rf => csr1_actvosrdy (status rf))) ;;
            ret vos
          else ret vos) ;;
  modify CR1 (set_dbp true) ;;
  while_clear (read CR1 (fun rf => cr1_dbp (ctl rf))) ;;
  (if backup_regulator p then
     modify CR2 (set_bren true) ;;
     while_clear (read CR2 (fun rf => cr2_brrdy (status rf)))
   else ret tt) ;;
  let backup := new_singleton (backup_regulator p) in
  ret (mkPowerConfiguration vos (Some backup)).

End Machine.

(** ** Concrete hardware used in the examples *)

(** Writes are latched as written and the status flags do not move. *)
Definition faithful_hw : Hw := mkHw (fun _ _ new => new) (fun rf => status rf).

Definition cr3_reset : CR3 := mkCR3 false true false 0 true.
Definition ctl_reset : Ctl := mkCtl false false cr3_reset 1 0 false.

(** Every status flag set; ACTVOS as given. *)
Definition ready_regs (actvos : Z) : RegFile :=
  mkRegFile ctl_reset (mkStatus true actvos true true).

Definition v_rm0399_smps_v : Variant := mkVariant RM0399 true true.
Definition v_rm0433_v : Variant := mkVariant RM0433 false true.
Definition v_rm0468_smps_v : Variant := mkVariant RM0468 true true.

(** CR3 keeps LDOEN cleared whatever is written: a readback that differs
    from the step-1 write. *)
Definition latch_ldoen_off_hw : Hw :=
  mkHw (fun r _ new =>
          if reg_eqb r PWR_CR3 then set_cr3 (set_ldoen false) new else new)
       (fun rf => status rf).

(** ** Observations on outcomes and traces *)

Definition otrace {A} (o : outcome A) : list event :=
  match o with Done _ _ tr | Panic _ _ tr | Spin _ tr => tr end.

Definition ostate {A} (o : outcome A) : RegFile :=
  match o with Done _ rf _ | Panic _ rf _ | Spin rf _ => rf end.

Definition is_spin {A} (o : outcome A) : bool :=
  match o with Spin _ _ => true | _ => false end.

Definition event_reg (e : event) : reg :=
  match e with EvRead r | EvWrite r _ => r end.

Definition is_write (e : event) : bool :=
  match e with EvWrite _ _ => true | EvRead _ => false end.

(** Events touching a register. *)
Definition touches (r : reg) (e : event) : bool := reg_eqb (event_reg e) r.

(** Writes of the voltage-scale field or of the overdrive register. *)
Definition is_vos_write (e : event) : bool :=
  match e with
  | EvWrite D3CR _ | EvWrite SYSCFG_PWRCR _ => true
  | _ => false
  end.

(** The events that bring the core to VOS0 after the intermediate hop:
    the overdrive write (RM0433/RM0399) or the D3CR write of the Scale0
    encoding (RM0468). *)
Definition reaches_scale0 (v : Variant) (e : event) : Prop :=
  match e with
  | EvWrite SYSCFG_PWRCR c => syscfg_pwrcr_oden c = 1
  | EvWrite D3CR c => vos_bits v Scale0 = Some (d3cr_vos c)
  | _ => False
  end.

(** Every event [m] logs satisfies [P]. *)
Definition emits (P : event -> Prop) {A} (m : M A) : Prop :=
  forall rf, Forall P (otrace (m rf)).

(** Calling [PowerConfiguration::backup] [n] times. *)
Fixpoint backup_calls (n : nat) (p : PowerConfiguration) : list (option BackupREC) :=
  match n with
  | O => []
  | S n' => let (h, p') := backup p in h :: backup_calls n' p'
  end.

(** The scale [freeze] reports, read off its control flow. *)
Definition reached_vos (v : Variant) (p : Pwr) : VoltageScale :=
  if (has_overdrive v || has_vos0_transition v) && is_scale0 (target_vos p) then Scale0
  else match target_vos p with Scale0 => Scale1 | x => x end.

(** [m] never ends in a panic with message [msg]. *)
Definition avoids (msg : string) {A} (m : M A) : Prop :=
  forall rf rf' tr, m rf <> Panic msg rf' tr.

(** The first write to D3CR or to SYSCFG.PWRCR in [tr], if any, is a D3CR
    write of the field value [bits]. *)
Definition first_vos_write_is (bits : Z) (tr : list event) : Prop :=
  match filter is_vos_write tr with
  | [] => True
  | EvWrite D3CR c :: _ => d3cr_vos c = bits
  | _ => False
  end.

(** The CR3 fields step 1 of [freeze] sets for each selection hold in [r]. *)
Definition cr3_as_written (c : SupplyConfiguration) (r : CR3) : bool :=
  match c with
  | LDOSupply => negb (sden r) && ldoen r
  | DirectSMPS => sden r && negb (ldoen r)
  | SMPSFeedsIntoLDO1V8 => sden r && ldoen r && Z.eqb (sdlevel r) 1
  | SMPSFeedsIntoLDO2V5 => sden r && ldoen r && Z.eqb (sdlevel r) 2
  | Bypass => negb (sden r) && negb (ldoen r) && bypass r
  | Default => true
  end.

(** A call of one of the builder methods of [impl Pwr]. *)
Inductive Method :=
  | MLdo | MSmps | MBypass | MSmps1v8FeedsLdo | MSmps2v5FeedsLdo
  | MVos0 | MVos1 | MVos2 | MVos3 | MBackupRegulator.

Definition apply_method (m : Method) (p : Pwr) : Pwr :=
  match m with
  | MLdo => Builder.ldo p
  | MSmps => Builder.smps p
  | MBypass => Builder.bypass p
  | MSmps1v8FeedsLdo => Builder.smps_1v8_feeds_ldo p
  | MSmps2v5FeedsLdo => Builder.smps_2v5_feeds_ldo p
  | MVos0 => Builder.vos0 p
  | MVos1 => Builder.vos1 p
  | MVos2 => Builder.vos2 p
  | MVos3 => Builder.vos3 p
  | MBackupRegulator => Builder.backup_regulator p
  end.

(** A chain of builder calls, first call first. *)
Definition apply_methods (ms : list Method) (p : Pwr) : Pwr :=
  fold_left (fun q m => apply_method m q) ms p.

Definition method_supply (m : Method) : option SupplyConfiguration :=
  match m with
  | MLdo => Some LDOSupply
  | MSmps => Some DirectSMPS
  | MBypass => Some Bypass
  | MSmps1v8FeedsLdo => Some SMPSFeedsIntoLDO1V8
  | MSmps2v5FeedsLdo => Some SMPSFeedsIntoLDO2V5
  | _ => None
  end.

Definition method_vos (m : Method) : option VoltageScale :=
  match m with
  | MVos0 => Some Scale0
  | MVos1 => Some Scale1
  | MVos2 => Some Scale2
  | MVos3 => Some Scale3
  | _ => None
  end.

Definition is_backup_method (m : Method) : bool :=
  match m with MBackupRegulator => true | _ => false end.

(** The value of the last call of a kind, [d] when there is none. *)
Definition last_set {X} (f : Method -> option X) (ms : list Method) (d : X) : X :=
  fold_left (fun acc m => match f m with Some x => x | None => acc end) ms d.

(** Every write of SYSCFG.PWRCR in [tr] comes after a write of
    RCC.APB4ENR that sets SYSCFGEN. *)
Definition syscfg_after_rcc (tr : list event) : Prop :=
  forall tr1 c tr2, tr = tr1 ++ EvWrite SYSCFG_PWRCR c :: tr2 ->
    exists c', In (EvWrite RCC_APB4ENR c') tr1 /\ rcc_apb4enr_syscfgen c' = true.

(** [m] preserves the property [I] of the register file, whatever its
    outcome. *)
Definition keeps (I : RegFile -> Prop) {A} (m : M A) : Prop :=
  forall rf, I rf -> I (ostate (m rf)).

(** * Proofs *)

(** ** Monad lemmas *)

Lemma prepend_trace {A} tr (o : outcome A) : otrace (prepend tr o) = tr ++ otrace o.
Proof. destruct o; reflexivity. Qed.

Lemma prepend_state {A} tr (o : outcome A) : ostate (prepend tr o) = ostate o.
Proof. destruct o; reflexivity. Qed.

Lemma bind_trace {A B} (m : M A) (k : A -> M B) rf :
  otrace (bind m k rf) =
  match m rf with
  | Done a rf1 tr1 => tr1 ++ otrace (k a rf1)
  | o => otrace o
  end.
Proof. unfold bind. destruct (m rf); try reflexivity. apply prepend_trace. Qed.

Lemma bind_Done_inv {A B} (m : M A) (k : A -> M B) rf b rf' tr :
  bind m k rf = Done b rf' tr ->
  exists a rf1 tr1 tr2,
    m rf = Done a rf1 tr1 /\ k a rf1 = Done b rf' tr2 /\ tr = tr1 ++ tr2.
Proof.
  unfold bind. destruct (m rf) as [a rf1 tr1| |]; try discriminate.
  destruct (k a rf1) as [b' rf2 tr2| |] eqn:E; simpl; try discriminate.
  intros H; injection H as <- <- <-. eauto 8.
Qed.

Lemma ret_Done_inv {A} (a b : A) rf rf' tr :
  ret a rf = Done b rf' tr -> a = b /\ rf = rf' /\ tr = [].
Proof. unfold ret. intros H; injection H as <- <- <-. auto. Qed.

Ltac inv_bind H :=
  let a := fresh "a" in let rf := fresh "rf" in
  let t1 := fresh "tr" in let t2 := fresh "tr" in
  let Hm := fresh "Hm" in let Hk := fresh "Hk" in let Ht := fresh "Htr" in
  apply bind_Done_inv in H; destruct H as (a & rf & t1 & t2 & Hm & Hk & Ht).

(** ** Event invariants *)

Lemma emits_done {A} P (m : M A) rf a rf' tr :
  emits P m -> m rf = Done a rf' tr -> Forall P tr.
Proof. intros H E. specialize (H rf). rewrite E in H. exact H. Qed.

Lemma emits_ret {A} P (a : A) : emits P (ret a).
Proof. intros rf. constructor. Qed.

Lemma emits_panic {A} P msg : emits P (@panic A msg).
Proof. intros rf. constructor. Qed.

Lemma emits_assert P b msg : emits P (assert b msg).
Proof. unfold assert. destruct b; [apply emits_ret | apply emits_panic]. Qed.

Lemma emits_bind {A B} P (m : M A) (k : A -> M B) :
  emits P m -> (forall a, emits P (k a)) -> emits P (bind m k).
Proof.
  intros Hm Hk rf. rewrite bind_trace. specialize (Hm rf).
  destruct (m rf); simpl in *; auto.
  apply Forall_app; split; auto. apply Hk.
Qed.

Lemma emits_read {A} P r (f : RegFile -> A) : P (EvRead r) -> emits P (read r f).
Proof. intros H rf. repeat constructor. exact H. Qed.

Lemma emits_write hw P r upd :
  (forall c, P (EvWrite r c)) -> emits P (write hw r upd).
Proof. intros H rf. repeat constructor. apply H. Qed.

Lemma emits_modify hw P r upd :
  P (EvRead r) -> (forall c, P (EvWrite r c)) -> emits P (modify hw r upd).
Proof.
  intros H1 H2. unfold modify. apply emits_bind; [apply emits_read; auto|].
  intros _. apply emits_write; auto.
Qed.

Lemma emits_poll hw P n (cond : M bool) :
  emits P cond -> emits P (poll_loop hw n cond).
Proof.
  intros Hc. induction n as [|n IH]; intros rf; simpl; [constructor|].
  specialize (Hc rf). destruct (cond rf) as [[|] rf1 tr| |]; simpl in *; auto.
  rewrite prepend_trace. apply Forall_app; split; auto.
Qed.

(** Peel every [bind], [ret] and [if] off the hypotheses stating that a
    computation completed. *)
Ltac crush_done :=
  repeat match goal with
  | H : bind _ _ _ = Done _ _ _ |- _ => inv_bind H
  | H : ret _ _ = Done _ _ _ |- _ =>
      apply ret_Done_inv in H; destruct H as (? & ? & ?); subst
  | H : (if ?b then _ else _) _ = Done _ _ _ |- _ => destruct b eqn:?
  | H : (let _ := _ in _) _ = Done _ _ _ |- _ => cbv zeta in H
  end.

(** ** The value returned by [freeze] *)

Lemma freeze_result hw fuel v p rf a rf' tr :
  freeze hw fuel v p rf = Done a rf' tr ->
  a = mkPowerConfiguration (reached_vos v p) (Some (new_singleton (backup_regulator p))).
Proof.
  unfold freeze. intros H. crush_done.
  all: unfold reached_vos;
    destruct (has_overdrive v), (has_vos0_transition v), (target_vos p);
    simpl in *; try discriminate; reflexivity.
Qed.

Lemma backup_calls_taken n x :
  backup_calls n (mkPowerConfiguration x None) = repeat None n.
Proof. induction n as [|n IH]; simpl; [reflexivity | now rewrite IH]. Qed.

(** ** Registers each step of [freeze] touches *)

Ltac emits_tac :=
  repeat first
    [ apply emits_bind; [|intros ?]
    | apply emits_ret
    | apply emits_panic
    | apply emits_assert
    | apply emits_poll
    | apply emits_read; try reflexivity; try solve [eauto]
    | apply emits_modify; [try reflexivity; try solve [eauto]
                          | intros ?; try reflexivity; try solve [eauto]]
    | apply emits_write; intros ?; try reflexivity; try solve [eauto]
    | match goal with |- emits _ (if ?b then _ else _) => destruct b eqn:? end ].

Lemma verify_emits P p : P (EvRead PWR_CR3) -> emits P (verify_supply_configuration p).
Proof.
  intros H. unfold verify_supply_configuration, cr3_field.
  destruct (supply_configuration p); emits_tac.
Qed.

Lemma transition_emits hw fuel P v s :
  P (EvRead D3CR) -> (forall c, P (EvWrite D3CR c)) ->
  emits P (voltage_scaling_transition hw fuel v s).
Proof.
  intros H1 H2. unfold voltage_scaling_transition, while_clear.
  destruct (vos_bits v s); emits_tac.
Qed.

(** Without the backup regulator, [freeze] never accesses CR2. *)
Lemma freeze_no_cr2 hw fuel v p :
  backup_regulator p = false ->
  emits (fun e => touches CR2 e = false) (freeze hw fuel v p).
Proof.
  intros Hb. unfold freeze, while_clear.
  emits_tac; try apply verify_emits; try apply transition_emits; try reflexivity; congruence.
Qed.

(** * Claims *)

(** ** C2
    For every variant and every requested scale the builder can set
    (Scale0 only where the [vos0] method exists), a [freeze] that runs to
    completion returns a [PowerConfiguration] whose [vos()] is the
    requested scale: Scale0 after the overdrive (RM0433/RM0399) or second
    transition (RM0468) step, otherwise the scale written to D3CR.  This
    holds for any hardware, in particular for one that reflects writes. *)
Theorem freeze_vos_requested hw fuel v p rf a rf' tr :
  (target_vos p <> Scale0 \/ has_vos0_method v = true) ->
  freeze hw fuel v p rf = Done a rf' tr ->
  vos a = target_vos p.
Proof.
  intros Hlegal H. apply freeze_result in H. subst a. unfold vos, reached_vos; simpl.
  unfold has_vos0_method in Hlegal.
  destruct (target_vos p); simpl;
    destruct (has_overdrive v), (has_vos0_transition v); simpl in *;
    intuition congruence.
Qed.

Lemma freeze_vos_requested_witness :
  exists a rf' tr,
    freeze faithful_hw 1 v_rm0399_smps_v (Builder.vos0 (Builder.smps constrain)) (ready_regs 3)
    = Done a rf' tr /\ vos a = Scale0.
Proof.
  do 3 eexists. split; [reflexivity|].
  exact (freeze_vos_requested faithful_hw 1 v_rm0399_smps_v
           (Builder.vos0 (Builder.smps constrain)) (ready_regs 3) _ _ _
           (or_intror eq_refl) eq_refl).
Defined.

(** ** C6
    For every [PowerConfiguration] produced by [freeze], the first call to
    [backup()] yields the backup-regulator handle and every later call
    yields [None]. *)
Theorem freeze_backup_taken_once hw fuel v p rf a rf' tr :
  freeze hw fuel v p rf = Done a rf' tr ->
  forall n,
    backup_calls (S n) a = Some (new_singleton (backup_regulator p)) :: repeat None n.
Proof.
  intros H n. apply freeze_result in H. subst a.
  simpl. now rewrite backup_calls_taken.
Qed.

Lemma freeze_backup_taken_once_witness :
  exists a rf' tr,
    freeze faithful_hw 1 v_rm0433_v (Builder.backup_regulator constrain) (ready_regs 3)
    = Done a rf' tr /\
    backup_calls 3 a = [Some (new_singleton true); None; None].
Proof.
  do 3 eexists. split; [reflexivity|].
  apply (freeze_backup_taken_once faithful_hw 1 v_rm0433_v
           (Builder.backup_regulator constrain) (ready_regs 3) _ _ _ eq_refl 2).
Defined.

(** ** C9
    [constrain] yields a builder with target Scale1, the default supply
    configuration and the backup regulator off; [freeze] on it never
    accesses CR2 (so never writes BREN), and when it completes it reports
    Scale1. *)
Theorem constrain_freeze_defaults hw fuel v rf :
  supply_configuration constrain = Default /\
  target_vos constrain = Scale1 /\
  backup_regulator constrain = false /\
  Forall (fun e => touches CR2 e = false) (otrace (freeze hw fuel v constrain rf)) /\
  (forall a rf' tr, freeze hw fuel v constrain rf = Done a rf' tr -> vos a = Scale1).
Proof.
  split; [reflexivity|]. split; [reflexivity|]. split; [reflexivity|]. split.
  - apply freeze_no_cr2. reflexivity.
  - intros a rf' tr H. apply freeze_result in H. subst a.
    unfold vos, reached_vos; simpl. now rewrite andb_false_r.
Qed.

Lemma constrain_freeze_defaults_witness :
  exists a rf' tr,
    freeze faithful_hw 1 v_rm0433_v constrain (ready_regs 3) = Done a rf' tr /\
    vos a = Scale1.
Proof.
  do 3 eexists. split; [reflexivity|].
  exact (proj2 (proj2 (proj2 (proj2
           (constrain_freeze_defaults faithful_hw 1 v_rm0433_v (ready_regs 3)))))
           _ _ _ eq_refl).
Defined.

(** ** Panics *)

Lemma avoids_ret msg {A} (a : A) : avoids msg (ret a).
Proof. intros rf rf' tr; discriminate. Qed.

Lemma avoids_panic msg msg' {A} : msg' <> msg -> avoids msg (@panic A msg').
Proof. intros H rf rf' tr E. injection E as E. congruence. Qed.

Lemma avoids_assert msg b msg' : msg' <> msg -> avoids msg (assert b msg').
Proof.
  intros H. unfold assert. destruct b; [apply (avoids_ret msg tt) | apply avoids_panic, H].
Qed.

Lemma avoids_bind msg {A B} (m : M A) (k : A -> M B) :
  avoids msg m -> (forall a, avoids msg (k a)) -> avoids msg (bind m k).
Proof.
  intros Hm Hk rf rf' tr. unfold bind.
  specialize (Hm rf). destruct (m rf) as [a rf1 tr1|msg' rf1 tr1|rf1 tr1]; try discriminate.
  - specialize (Hk a rf1). destruct (k a rf1); simpl; try discriminate.
    intros E. injection E as <- <- <-. eapply Hk; reflexivity.
  - intros E. injection E as <- <- <-. eapply Hm; reflexivity.
Qed.

Lemma avoids_read msg {A} r (f : RegFile -> A) : avoids msg (read r f).
Proof. intros rf rf' tr; discriminate. Qed.

Lemma avoids_write msg hw r upd : avoids msg (write hw r upd).
Proof. intros rf rf' tr; discriminate. Qed.

Lemma avoids_modify msg hw r upd : avoids msg (modify hw r upd).
Proof. apply avoids_bind; [apply avoids_read | intros; apply avoids_write]. Qed.

Lemma avoids_poll msg hw n (cond : M bool) :
  avoids msg cond -> avoids msg (poll_loop hw n cond).
Proof.
  intros Hc. induction n as [|n IH]; intros rf rf' tr; simpl; [discriminate|].
  specialize (Hc rf). destruct (cond rf) as [[|] rf1 tr1| |]; try discriminate.
  - specialize (IH (tick hw rf1)). destruct (poll_loop hw n cond (tick hw rf1)); simpl;
      try discriminate.
    intros E. injection E as <- <- <-. eapply IH; reflexivity.
  - intros E. injection E as <- <- <-. eapply Hc; reflexivity.
Qed.

Lemma error_not_unimplemented : error <> not_implemented.
Proof. discriminate. Qed.

Ltac avoids_tac :=
  repeat first
    [ apply avoids_bind; [|intros ?]
    | apply avoids_ret
    | apply avoids_assert; apply error_not_unimplemented
    | apply avoids_poll
    | apply avoids_read
    | apply avoids_modify
    | apply avoids_write
    | match goal with |- avoids _ (if ?b then _ else _) => destruct b eqn:? end ].

Lemma verify_avoids p : avoids not_implemented (verify_supply_configuration p).
Proof.
  unfold verify_supply_configuration, cr3_field.
  destruct (supply_configuration p); avoids_tac.
Qed.

Lemma transition_avoids hw fuel v s b :
  vos_bits v s = Some b -> avoids not_implemented (voltage_scaling_transition hw fuel v s).
Proof.
  intros E. unfold voltage_scaling_transition, while_clear. rewrite E. avoids_tac.
Qed.

(** ** C10
    On RM0433/RM0399, [freeze] never reaches the [unimplemented!()] arm of
    [voltage_scaling_transition]: a Scale0 target is mapped to Scale1
    before the call, and the overdrive path does not call it again. *)
Theorem freeze_no_unimplemented hw fuel v p :
  fam v = RM0433 \/ fam v = RM0399 ->
  avoids not_implemented (freeze hw fuel v p).
Proof.
  intros Hf. destruct v as [f sm rv]; simpl in Hf.
  unfold freeze, while_clear.
  apply avoids_bind; [apply avoids_modify | intros _].
  apply avoids_bind; [destruct sm; [apply verify_avoids | apply avoids_ret] | intros _].
  apply avoids_bind; [apply avoids_poll, avoids_read | intros _]. cbv zeta.
  apply avoids_bind.
  { destruct Hf as [-> | ->]; destruct (target_vos p); eapply transition_avoids; reflexivity. }
  intros _. avoids_tac.
  all: destruct Hf as [-> | ->]; destruct rv; simpl in *; discriminate.
Qed.

Lemma freeze_no_unimplemented_witness :
  fam v_rm0433_v = RM0433 /\
  avoids not_implemented (freeze faithful_hw 1 v_rm0433_v (Builder.vos0 constrain)).
Proof.
  split; [reflexivity|].
  apply (freeze_no_unimplemented faithful_hw 1 v_rm0433_v (Builder.vos0 constrain)).
  left. reflexivity.
Defined.

(** ** Order of the voltage-scale writes *)

Lemma filter_vos_prefix t1 t2 :
  Forall (fun e => is_vos_write e = false) t1 ->
  filter is_vos_write (t1 ++ t2) = filter is_vos_write t2.
Proof.
  induction 1 as [|e t1 He _ IH]; simpl; [reflexivity|]. now rewrite He.
Qed.

Lemma first_vos_bind {A B} bits (m : M A) (k : A -> M B) rf :
  emits (fun e => is_vos_write e = false) m ->
  (forall a rf1, first_vos_write_is bits (otrace (k a rf1))) ->
  first_vos_write_is bits (otrace (bind m k rf)).
Proof.
  intros Hm Hk. rewrite bind_trace. specialize (Hm rf).
  unfold first_vos_write_is in *.
  destruct (m rf) as [a rf1 tr1|msg rf1 tr1|rf1 tr1]; simpl in *.
  - rewrite filter_vos_prefix by exact Hm. apply Hk.
  - rewrite <- (app_nil_r tr1), filter_vos_prefix by exact Hm. exact I.
  - rewrite <- (app_nil_r tr1), filter_vos_prefix by exact Hm. exact I.
Qed.

Lemma transition_trace hw fuel v s b rf :
  vos_bits v s = Some b ->
  exists tr, otrace (voltage_scaling_transition hw fuel v s rf)
             = EvWrite D3CR (set_d3cr_vos b (ctl rf)) :: tr.
Proof.
  intros E. unfold voltage_scaling_transition. rewrite E.
  rewrite bind_trace. simpl. eauto.
Qed.

Lemma first_vos_transition {B} hw fuel v s b (k : unit -> M B) rf :
  vos_bits v s = Some b ->
  first_vos_write_is b (otrace (bind (voltage_scaling_transition hw fuel v s) k rf)).
Proof.
  intros E. destruct (transition_trace hw fuel v s b rf E) as [tr Htr].
  rewrite bind_trace. unfold first_vos_write_is.
  destruct (voltage_scaling_transition hw fuel v s rf) eqn:Et; simpl in *;
    subst; simpl; reflexivity.
Qed.

(** The first write [freeze] makes to D3CR or SYSCFG.PWRCR is the D3CR
    write of the first transition, to Scale1 when Scale0 is requested. *)
Lemma freeze_first_vos_write hw fuel v p rf b :
  vos_bits v (match target_vos p with Scale0 => Scale1 | x => x end) = Some b ->
  first_vos_write_is b (otrace (freeze hw fuel v p rf)).
Proof.
  intros E. unfold freeze, while_clear.
  apply first_vos_bind; [apply emits_modify; reflexivity | intros ? rf1; cbv beta].
  apply first_vos_bind.
  { destruct (feature_smps v); [apply verify_emits; reflexivity | apply emits_ret]. }
  intros ? rf2; cbv beta.
  apply first_vos_bind; [apply emits_poll, emits_read; reflexivity | intros ? rf3; cbv beta zeta].
  apply first_vos_transition. exact E.
Qed.

Lemma filter_first {A} (f : A -> bool) l x rest :
  filter f l = x :: rest ->
  exists l1 l2, l = l1 ++ x :: l2 /\ Forall (fun y => f y = false) l1.
Proof.
  induction l as [|y l IH]; simpl; [discriminate|].
  destruct (f y) eqn:Ey.
  - intros H. injection H as <- _. exists [], l. auto.
  - intros H. destruct (IH H) as (l1 & l2 & -> & Hf).
    exists (y :: l1), l2. auto.
Qed.

(** ** C5
    When Scale0 is requested on a part that reaches it in two hops
    (RM0433/RM0399/RM0468 with [revision_v]), any event of the trace that
    brings the core to Scale0 (the overdrive write, or the D3CR write of
    the Scale0 encoding) is preceded by a D3CR write of the Scale1
    encoding, and no D3CR or overdrive write comes before that one. *)
Theorem freeze_vos0_two_hop hw fuel v p rf tr1 e tr2 :
  target_vos p = Scale0 ->
  has_vos0_method v = true ->
  otrace (freeze hw fuel v p rf) = tr1 ++ e :: tr2 ->
  reaches_scale0 v e ->
  exists tr1a c tr1b,
    tr1 = tr1a ++ EvWrite D3CR c :: tr1b /\
    vos_bits v Scale1 = Some (d3cr_vos c) /\
    Forall (fun e' => is_vos_write e' = false) tr1a.
Proof.
  intros Ht Hm Htr He.
  assert (Hb : vos_bits v Scale1 = Some 3 /\ vos_bits v Scale0 <> Some 3).
  { unfold has_vos0_method, has_overdrive, has_vos0_transition, vos_bits in *.
    destruct (fam v), (feature_revision_v v); simpl in *; split; congruence. }
  destruct Hb as [Hb1 Hb0].
  pose proof (freeze_first_vos_write hw fuel v p rf 3) as Hf.
  rewrite Ht in Hf. specialize (Hf Hb1). rewrite Htr in Hf.
  unfold first_vos_write_is in Hf. rewrite filter_app in Hf.
  destruct (filter is_vos_write tr1) as [|x rest] eqn:Ef.
  - destruct e as [r|r c]; simpl in He; [contradiction|].
    destruct r; try contradiction; simpl in Hf; first [congruence | contradiction].
  - destruct (filter_first _ _ _ _ Ef) as (l1 & l2 & -> & Hl1).
    destruct x as [r|r c]; [contradiction|].
    destruct r; try contradiction.
    exists l1, c, l2. rewrite Hb1, Hf. auto.
Qed.

Lemma freeze_vos0_two_hop_witness :
  let T := otrace (freeze faithful_hw 1 v_rm0399_smps_v
                     (Builder.vos0 (Builder.smps constrain)) (ready_regs 3)) in
  T = firstn 10 T ++ nth 10 T (EvRead CR1) :: skipn 11 T /\
  reaches_scale0 v_rm0399_smps_v (nth 10 T (EvRead CR1)) /\
  exists tr1a c tr1b,
    firstn 10 T = tr1a ++ EvWrite D3CR c :: tr1b /\
    vos_bits v_rm0399_smps_v Scale1 = Some (d3cr_vos c) /\
    Forall (fun e' => is_vos_write e' = false) tr1a.
Proof.
  intros T. split; [vm_compute; reflexivity|]. split; [vm_compute; reflexivity|].
  apply (freeze_vos0_two_hop faithful_hw 1 v_rm0399_smps_v
           (Builder.vos0 (Builder.smps constrain)) (ready_regs 3)
           (firstn 10 T) (nth 10 T (EvRead CR1)) (skipn 11 T)).
  - reflexivity.
  - reflexivity.
  - vm_compute. reflexivity.
  - vm_compute. reflexivity.
Defined.

(** ** Shape of completed accesses *)

Lemma modify_done hw r upd rf u rf' tr :
  modify hw r upd rf = Done u rf' tr -> tr = [EvRead r; EvWrite r (upd (ctl rf))].
Proof. unfold modify, bind, read, write. simpl. intros H. injection H as _ _ <-. reflexivity. Qed.

Lemma poll_read_done {A} hw n r (f : RegFile -> A) (g : A -> bool) rf u rf' tr :
  poll_loop hw n (fun rf0 => Done (g (f rf0)) rf0 [EvRead r]) rf = Done u rf' tr ->
  exists k, tr = repeat (EvRead r) (S k).
Proof.
  revert rf tr. induction n as [|n IH]; intros rf tr H; simpl in H; [discriminate|].
  destruct (g (f rf)).
  - injection H as _ _ <-. exists 0%nat. reflexivity.
  - destruct (poll_loop hw n _ (tick hw rf)) eqn:E; simpl in H; try discriminate.
    injection H as -> -> <-. destruct (IH _ _ E) as [k ->]. exists (S k). reflexivity.
Qed.

Lemma poll_bit_done hw n r (f : RegFile -> bool) rf u rf' tr :
  poll_loop hw n (read r f) rf = Done u rf' tr ->
  exists k, tr = repeat (EvRead r) (S k).
Proof. apply (poll_read_done hw n r f (fun b => b)). Qed.

(** [freeze] up to, and without, the backup-domain steps emits no CR2
    event. *)
Ltac no_cr2 :=
  match goal with
  | H : ?m _ = Done _ _ ?t |- Forall _ ?t =>
      refine (emits_done _ m _ _ _ _ _ H);
      unfold while_clear; emits_tac;
      try apply verify_emits; try apply transition_emits; reflexivity
  end.

(** ** C7
    In every completed [freeze], the trace ends with the backup-domain
    steps: a read-modify-write of CR1 setting DBP, reads of CR1 until DBP
    reads set, then, exactly when [backup_regulator] was requested, a
    read-modify-write of CR2 setting BREN followed by reads of CR2 until
    BRRDY reads set.  No CR2 access happens before, so CR2 is not touched
    at all when the backup regulator was not requested. *)
Theorem freeze_backup_domain hw fuel v p rf a rf' tr :
  freeze hw fuel v p rf = Done a rf' tr ->
  exists pre c k post,
    tr = pre ++ EvRead CR1 :: EvWrite CR1 c :: repeat (EvRead CR1) (S k) ++ post /\
    cr1_dbp c = true /\
    Forall (fun e => touches CR2 e = false) pre /\
    (if backup_regulator p then
       exists c' k', post = EvRead CR2 :: EvWrite CR2 c' :: repeat (EvRead CR2) (S k') /\
                     cr2_bren c' = true
     else post = []).
Proof.
  intros H. unfold freeze in H.
  apply bind_Done_inv in H; destruct H as (a1 & rf1 & t1 & u1 & H1 & H & E1).
  apply bind_Done_inv in H; destruct H as (a2 & rf2 & t2 & u2 & H2 & H & E2).
  apply bind_Done_inv in H; destruct H as (a3 & rf3 & t3 & u3 & H3 & H & E3).
  cbv zeta in H.
  apply bind_Done_inv in H; destruct H as (a4 & rf4 & t4 & u4 & H4 & H & E4).
  apply bind_Done_inv in H; destruct H as (a5 & rf5 & t5 & u5 & H5 & H & E5).
  apply bind_Done_inv in H; destruct H as (a6 & rf6 & t6 & u6 & H6 & H & E6).
  apply bind_Done_inv in H; destruct H as (a7 & rf7 & t7 & u7 & H7 & H & E7).
  apply bind_Done_inv in H; destruct H as (a8 & rf8 & t8 & u8 & H8 & H & E8).
  apply bind_Done_inv in H; destruct H as (a9 & rf9 & t9 & u9 & H9 & H & E9).
  apply ret_Done_inv in H; destruct H as (_ & _ & ->).
  apply modify_done in H7. apply poll_bit_done in H8. destruct H8 as [k ->].
  subst.
  exists (t1 ++ t2 ++ t3 ++ t4 ++ t5 ++ t6), (set_dbp true (ctl rf6)), k, t9.
  split; [rewrite app_nil_r; simpl; now rewrite <- !app_assoc|].
  split; [reflexivity|].
  split.
  - rewrite !Forall_app. repeat split; no_cr2.
  - destruct (backup_regulator p).
    + apply bind_Done_inv in H9; destruct H9 as (a10 & rf10 & t10 & u10 & H10 & H11 & ->).
      apply modify_done in H10. apply poll_bit_done in H11. destruct H11 as [k' ->].
      subst. exists (set_bren true (ctl rf8)), k'. split; reflexivity.
    + apply ret_Done_inv in H9. tauto.
Qed.


Lemma freeze_backup_domain_witness :
  exists a rf' tr,
    freeze faithful_hw 1 v_rm0468_smps_v (Builder.backup_regulator (Builder.ldo constrain))
      (ready_regs 3) = Done a rf' tr /\
    exists pre c k post,
      tr = pre ++ EvRead CR1 :: EvWrite CR1 c :: repeat (EvRead CR1) (S k) ++ post /\
      cr1_dbp c = true /\
      Forall (fun e => touches CR2 e = false) pre /\
      (exists c' k', post = EvRead CR2 :: EvWrite CR2 c' :: repeat (EvRead CR2) (S k') /\
                     cr2_bren c' = true).
Proof.
  do 3 eexists. split; [reflexivity|].
  pose proof (freeze_backup_domain faithful_hw 1 v_rm0468_smps_v
           (Builder.backup_regulator (Builder.ldo constrain)) (ready_regs 3) _ _ _ eq_refl) as HH. exact HH.
Defined.

(** ** State invariants *)

Lemma keeps_ret I {A} (a : A) : keeps I (ret a).
Proof. intros rf H. exact H. Qed.

Lemma keeps_panic I {A} msg : keeps I (@panic A msg).
Proof. intros rf H. exact H. Qed.

Lemma keeps_assert I b msg : keeps I (assert b msg).
Proof. unfold assert. destruct b; [apply keeps_ret | apply keeps_panic]. Qed.

Lemma keeps_read I {A} r (f : RegFile -> A) : keeps I (read r f).
Proof. intros rf H. exact H. Qed.

Lemma keeps_bind I {A B} (m : M A) (k : A -> M B) :
  keeps I m -> (forall a, keeps I (k a)) -> keeps I (bind m k).
Proof.
  intros Hm Hk rf H. unfold bind. specialize (Hm rf H).
  destruct (m rf); simpl in *; auto. rewrite prepend_state. apply Hk, Hm.
Qed.

Lemma keeps_write I hw r upd :
  (forall rf, I rf -> I (mkRegFile (hw_write hw r (ctl rf) (upd (ctl rf))) (status rf))) ->
  keeps I (write hw r upd).
Proof. intros H rf Hrf. apply H, Hrf. Qed.

Lemma keeps_modify I hw r upd :
  (forall rf, I rf -> I (mkRegFile (hw_write hw r (ctl rf) (upd (ctl rf))) (status rf))) ->
  keeps I (modify hw r upd).
Proof.
  intros H. apply keeps_bind; [apply keeps_read | intros _; apply keeps_write, H].
Qed.

Lemma keeps_poll I hw n (cond : M bool) :
  (forall rf, I rf -> I (tick hw rf)) -> keeps I cond -> keeps I (poll_loop hw n cond).
Proof.
  intros Ht Hc. induction n as [|n IH]; intros rf H; simpl; [exact H|].
  specialize (Hc rf H). destruct (cond rf) as [[|] rf1 tr| |]; simpl in *; auto.
  rewrite prepend_state. apply IH, Ht, Hc.
Qed.

Ltac keeps_tac :=
  repeat first
    [ apply keeps_bind; [|intros ?]
    | apply keeps_ret
    | apply keeps_panic
    | apply keeps_assert
    | apply keeps_poll; [intros ? ?; assumption|]
    | apply keeps_read
    | apply keeps_modify
    | apply keeps_write
    | match goal with |- keeps _ (if ?b then _ else _) => destruct b eqn:? end ].

Lemma modify_eq hw r upd rf :
  modify hw r upd rf =
  Done tt (mkRegFile (hw_write hw r (ctl rf) (upd (ctl rf))) (status rf))
       [EvRead r; EvWrite r (upd (ctl rf))].
Proof. reflexivity. Qed.

Lemma filter_emits_nil {A} (f : event -> bool) (m : M A) rf :
  emits (fun e => f e = false) m -> filter f (otrace (m rf)) = [].
Proof.
  intros H. specialize (H rf). induction H as [|e tr He _ IH]; simpl; auto.
  now rewrite He.
Qed.

Lemma set_cr3_id c : set_cr3 (fun r => r) c = c.
Proof. destruct c; reflexivity. Qed.

(** ** C4 *)

(** Counterexample: with the default supply configuration on an SMPS
    part, step 1 of [freeze] still reads CR3 and writes it
    ([cr3.modify(|_, w| w)]). *)
Lemma freeze_default_touches_cr3 :
  supply_configuration constrain = Default /\
  firstn 2 (otrace (freeze faithful_hw 1 v_rm0399_smps_v constrain (ready_regs 3)))
  = [EvRead PWR_CR3; EvWrite PWR_CR3 ctl_reset].
Proof. split; [reflexivity | vm_compute; reflexivity]. Qed.

(** C4 (amended).  With the default supply configuration on an SMPS part, the only CR3
    accesses of [freeze] are the read of step 1 and the write back of
    exactly the value read (verify reads nothing), and on a register file
    that reflects writes CR3 ends as it started. *)
Theorem freeze_default_cr3 hw fuel v p rf :
  feature_smps v = true ->
  supply_configuration p = Default ->
  filter (touches PWR_CR3) (otrace (freeze hw fuel v p rf))
    = [EvRead PWR_CR3; EvWrite PWR_CR3 (ctl rf)] /\
  (faithful hw -> cr3 (ctl (ostate (freeze hw fuel v p rf))) = cr3 (ctl rf)).
Proof.
  intros Hs Hd.
  assert (Hid : forall c, set_cr3 (cr3_supply_write v (supply_configuration p)) c = c).
  { intros c. unfold cr3_supply_write. rewrite Hs, Hd. apply set_cr3_id. }
  split.
  - unfold freeze. rewrite bind_trace, modify_eq, Hid. cbv beta iota.
    simpl. f_equal. f_equal. apply filter_emits_nil.
    unfold while_clear. emits_tac; try apply transition_emits; try reflexivity.
    unfold verify_supply_configuration. rewrite Hd. apply emits_ret.
  - intros Hf.
    enough (K : keeps (fun rf0 => cr3 (ctl rf0) = cr3 (ctl rf)) (freeze hw fuel v p))
      by exact (K rf eq_refl).
    unfold freeze, while_clear. keeps_tac.
    all: try (intros rf0 H0; simpl; rewrite Hf; try rewrite Hid; simpl; exact H0).
    all: try (unfold verify_supply_configuration, cr3_field;
              destruct (supply_configuration p); keeps_tac).
    all: unfold voltage_scaling_transition, while_clear;
         try match goal with |- context [vos_bits ?a ?b] => destruct (vos_bits a b) end;
         keeps_tac.
    all: intros rf0 H0; simpl; rewrite Hf; exact H0.
Qed.

Lemma freeze_default_cr3_witness :
  (feature_smps v_rm0399_smps_v = true /\ supply_configuration constrain = Default) /\
  filter (touches PWR_CR3)
    (otrace (freeze faithful_hw 1 v_rm0399_smps_v constrain (ready_regs 3)))
    = [EvRead PWR_CR3; EvWrite PWR_CR3 ctl_reset] /\
  (faithful faithful_hw ->
   cr3 (ctl (ostate (freeze faithful_hw 1 v_rm0399_smps_v constrain (ready_regs 3))))
   = cr3_reset).
Proof.
  split; [split; reflexivity|].
  exact (freeze_default_cr3 faithful_hw 1 v_rm0399_smps_v constrain (ready_regs 3)
           eq_refl eq_refl).
Defined.

(** ** C1
    On an SMPS part, [smps_1v8_feeds_ldo] and [smps_2v5_feeds_ldo] make
    step 1 write SDEN = 1 and LDOEN = 1, while
    [verify_supply_configuration] asserts LDOEN clear for them: on a
    register file that reflects writes, [freeze] always panics in the
    verify step. *)
Theorem freeze_smps_feeds_ldo_panics tick fuel v p rf :
  feature_smps v = true ->
  supply_configuration p = SMPSFeedsIntoLDO1V8 \/
  supply_configuration p = SMPSFeedsIntoLDO2V5 ->
  exists rf' tr, freeze (mkHw (fun _ _ new => new) tick) fuel v p rf = Panic error rf' tr.
Proof.
  intros Hs Hc. destruct v as [f sm rv]; simpl in Hs; subst sm.
  destruct p as [sc t br]; simpl in Hc.
  destruct Hc as [-> | ->]; cbn; eauto.
Qed.

Lemma freeze_smps_feeds_ldo_panics_witness :
  exists rf' tr,
    freeze faithful_hw 1 v_rm0399_smps_v (Builder.smps_1v8_feeds_ldo constrain) (ready_regs 3)
    = Panic error rf' tr.
Proof.
  exact (freeze_smps_feeds_ldo_panics (fun rf => status rf) 1 v_rm0399_smps_v
           (Builder.smps_1v8_feeds_ldo constrain) (ready_regs 3) eq_refl (or_introl eq_refl)).
Defined.

(** ** C3
    With [smps_1v8_feeds_ldo], if CR3 reads back LDOEN = 0 although step 1
    wrote LDOEN = 1, the verify step passes and [freeze] goes on to write
    D3CR and to complete. *)
Theorem freeze_ldoen_mismatch_proceeds :
  let rf0 := ready_regs 3 in
  let written := set_cr3 (cr3_supply_write v_rm0399_smps_v SMPSFeedsIntoLDO1V8) (ctl rf0) in
  ldoen (cr3 written) = true /\
  ldoen (cr3 (hw_write latch_ldoen_off_hw PWR_CR3 (ctl rf0) written)) = false /\
  exists a rf' tr,
    freeze latch_ldoen_off_hw 1 v_rm0399_smps_v (Builder.smps_1v8_feeds_ldo constrain) rf0
    = Done a rf' tr /\
    In (EvWrite PWR_CR3 written) tr /\
    existsb (fun e => is_write e && touches D3CR e) tr = true.
Proof.
  intros rf0 written. split; [reflexivity|]. split; [reflexivity|].
  do 3 eexists. split; [reflexivity|]. split.
  - simpl. right. left. reflexivity.
  - reflexivity.
Qed.

(** ** C8 *)

Lemma poll_loop_S hw n (cond : M bool) rf :
  poll_loop hw (S n) cond rf =
  match cond rf with
  | Done true rf1 tr => Done tt rf1 tr
  | Done false rf1 tr => prepend tr (poll_loop hw n cond (tick hw rf1))
  | Panic msg rf1 tr => Panic msg rf1 tr
  | Spin rf1 tr => Spin rf1 tr
  end.
Proof. reflexivity. Qed.

Lemma poll_loop_stuck hw n (cond : M bool) rf tr :
  cond rf = Done false rf tr -> tick hw rf = rf ->
  poll_loop hw n cond rf = Spin rf (List.concat (repeat tr n)).
Proof.
  intros Hc Ht. induction n as [|n IH]; simpl; [reflexivity|].
  rewrite Hc, Ht, IH. reflexivity.
Qed.

(** Counterexample: on RM0468 with [revision_v], Scale0 requested and
    every status flag set, [freeze] keeps spinning in the loop that waits
    for CSR1.ACTVOS to equal D3CR.VOS when ACTVOS still holds the Scale1
    encoding, whatever the iteration bound. *)
Lemma freeze_rm0468_vos0_spins :
  d3cr_vosrdy (status (ready_regs 3)) = true /\
  csr1_actvosrdy (status (ready_regs 3)) = true /\
  cr2_brrdy (status (ready_regs 3)) = true /\
  forall fuel,
    is_spin (freeze faithful_hw fuel v_rm0468_smps_v (Builder.vos0 constrain) (ready_regs 3))
    = true.
Proof.
  split; [reflexivity|]. split; [reflexivity|]. split; [reflexivity|].
  intros [|n]; [reflexivity|].
  unfold freeze, while_clear, voltage_scaling_transition, verify_supply_configuration.
  cbv -[poll_loop].
  repeat (rewrite poll_loop_S; cbv -[poll_loop]).
  erewrite poll_loop_stuck by reflexivity. reflexivity.
Qed.

(** C8 (amended).  Every busy-wait loop leaves after one iteration once its condition
    holds; and on a register file that reflects writes, with VOSRDY,
    ACTVOSRDY and BRRDY set and, on the RM0468 Scale0 path, ACTVOS equal
    to the Scale0 encoding written to D3CR, [freeze] does not spin, with
    any bound of at least one iteration per loop. *)
Theorem freeze_polls_terminate :
  (forall hw n (cond : M bool) rf rf1 tr,
     cond rf = Done true rf1 tr -> poll_loop hw (S n) cond rf = Done tt rf1 tr) /\
  (forall tick fuel v p c s,
     d3cr_vosrdy s = true -> csr1_actvosrdy s = true -> cr2_brrdy s = true ->
     (has_vos0_transition v && is_scale0 (target_vos p) = true ->
      vos_bits v Scale0 = Some (csr1_actvos s)) ->
     is_spin (freeze (mkHw (fun _ _ new => new) tick) (S fuel) v p (mkRegFile c s)) = false).
Proof.
  split.
  - intros hw n cond rf rf1 tr H. rewrite poll_loop_S, H. reflexivity.
  - intros tick fuel v p c [vr av ar br] H1 H2 H3 H4; simpl in *; subst.
    destruct v as [f sm rv], p as [sc t b].
    destruct f, sm, rv, t; simpl in H4;
      try (specialize (H4 eq_refl); injection H4 as <-);
      destruct sc, b;
      unfold freeze, while_clear, voltage_scaling_transition, verify_supply_configuration;
      cbv -[poll_loop];
      repeat (rewrite poll_loop_S; cbv -[poll_loop]);
      reflexivity.
Qed.

Lemma freeze_polls_terminate_witness :
  is_spin (freeze faithful_hw 1 v_rm0468_smps_v (Builder.vos0 (Builder.smps constrain))
             (ready_regs 0)) = false.
Proof.
  exact (proj2 freeze_polls_terminate (fun rf => status rf) 0%nat v_rm0468_smps_v
           (Builder.vos0 (Builder.smps constrain)) ctl_reset (status (ready_regs 0))
           eq_refl eq_refl eq_refl (fun _ => eq_refl)).
Defined.

(** For LDO, direct SMPS and bypass, a CR3 readback that differs from the
    step-1 write makes [freeze] panic in the verify step: the trace is the
    step-1 read-modify-write followed by CR3 reads only, and the register
    file is the one left by step 1. *)
Lemma freeze_mismatch_aborts hw fuel v p rf :
  feature_smps v = true ->
  In (supply_configuration p) [LDOSupply; DirectSMPS; Bypass] ->
  let written := set_cr3 (cr3_supply_write v (supply_configuration p)) (ctl rf) in
  let latched := hw_write hw PWR_CR3 (ctl rf) written in
  cr3_as_written (supply_configuration p) (cr3 latched) = false ->
  exists reads,
    freeze hw fuel v p rf
    = Panic error (mkRegFile latched (status rf))
        (EvRead PWR_CR3 :: EvWrite PWR_CR3 written :: reads) /\
    Forall (fun e => e = EvRead PWR_CR3) reads.
Proof.
  intros Hs Hc written latched Hm.
  destruct p as [sc t b]; simpl in *.
  unfold freeze. simpl. rewrite Hs. unfold bind at 1. rewrite modify_eq.
  fold written latched. clearbody written latched.
  cbv beta iota.
  destruct latched as [d b0 [byp ld sd lv su] vv od se].
  destruct Hc as [<- | [<- | [<- | []]]]; simpl in Hm;
    destruct byp, ld, sd; simpl in Hm; try discriminate;
    cbn; eexists; (split; [reflexivity | repeat constructor]).
Qed.

(** * Further properties of pwr.rs *)

(** ** Voltage-scale encodings *)

(** Per family, distinct scales get distinct D3CR.VOS values, every value
    fits the 2-bit field, and the only scale without an encoding is Scale0
    on RM0433/RM0399. *)
Theorem vos_bits_encoding v :
  (forall s1 s2 b, vos_bits v s1 = Some b -> vos_bits v s2 = Some b -> s1 = s2) /\
  (forall s b, vos_bits v s = Some b -> 0 <= b <= 3) /\
  (forall s, vos_bits v s = None <-> (fam v = RM0433 \/ fam v = RM0399) /\ s = Scale0).
Proof.
  unfold vos_bits. destruct (fam v); (split; [|split]).
  all: try (intros [] [] b; simpl; intros; congruence).
  all: try (intros [] b H; simpl in H; try discriminate; injection H as <-; lia).
  all: intros []; simpl; split; intros H.
  all: try discriminate; auto.
  all: destruct H as [[H1|H1] H2]; discriminate.
Qed.



Lemma poll_read_final {A} hw n r (f : RegFile -> A) (g : A -> bool) rf u rf' tr :
  poll_loop hw n (fun rf0 => Done (g (f rf0)) rf0 [EvRead r]) rf = Done u rf' tr ->
  g (f rf') = true /\ ctl rf' = ctl rf.
Proof.
  revert rf tr. induction n as [|n IH]; intros rf tr H; simpl in H; [discriminate|].
  destruct (g (f rf)) eqn:E.
  - injection H as _ <- _. auto.
  - destruct (poll_loop hw n _ (tick hw rf)) eqn:E'; simpl in H; try discriminate.
    injection H as -> -> <-. destruct (IH _ _ E') as [H1 H2]. split; [exact H1|].
    rewrite H2. reflexivity.
Qed.

Lemma poll_bit_final hw n r (f : RegFile -> bool) rf u rf' tr :
  poll_loop hw n (read r f) rf = Done u rf' tr -> f rf' = true /\ ctl rf' = ctl rf.
Proof. apply (poll_read_final hw n r f (fun b => b)). Qed.

(** A completed [voltage_scaling_transition] wrote D3CR once with the
    scale's encoding, then read D3CR until VOSRDY was set; VOSRDY is set in
    the register file it returns, and on hardware that reflects writes
    D3CR.VOS holds the encoding. *)
Theorem transition_done hw fuel v s b rf u rf' tr :
  vos_bits v s = Some b ->
  voltage_scaling_transition hw fuel v s rf = Done u rf' tr ->
  (exists k, tr = EvWrite D3CR (set_d3cr_vos b (ctl rf)) :: repeat (EvRead D3CR) (S k)) /\
  d3cr_vosrdy (status rf') = true /\
  (faithful hw -> d3cr_vos (ctl rf') = b).
Proof.
  intros E H. unfold voltage_scaling_transition, while_clear in H. rewrite E in H.
  unfold bind, write in H. simpl in H.
  destruct (poll_loop hw fuel _ _) eqn:Ep; simpl in H; try discriminate.
  injection H as -> -> <-.
  destruct (poll_bit_done _ _ _ _ _ _ _ _ Ep) as [k ->].
  destruct (poll_bit_final _ _ _ _ _ _ _ _ Ep) as [Hr Hc].
  split; [eauto|]. split; [exact Hr|].
  intros Hf. rewrite Hc. simpl. rewrite Hf. reflexivity.
Qed.

Lemma transition_done_witness :
  exists u rf' tr,
    voltage_scaling_transition faithful_hw 1 v_rm0468_smps_v Scale0 (ready_regs 3)
    = Done u rf' tr /\ d3cr_vosrdy (status rf') = true /\ d3cr_vos (ctl rf') = 0.
Proof.
  do 3 eexists. split; [reflexivity|].
  pose proof (transition_done faithful_hw 1 v_rm0468_smps_v Scale0 0 (ready_regs 3)
                _ _ _ eq_refl eq_refl) as [_ [H1 H2]].
  split; [exact H1 | apply H2; intros ? ? ?; reflexivity].
Defined.

(** ** Builder methods *)

(** A chain of builder calls sets the supply configuration of its last
    supply setter, the scale of its last [vos*] call, and turns the backup
    regulator on if any call is [backup_regulator]; calls of different
    kinds do not interfere. *)
Theorem apply_methods_fields ms p :
  apply_methods ms p =
  mkPwr (last_set method_supply ms (supply_configuration p))
        (last_set method_vos ms (target_vos p))
        (backup_regulator p || existsb is_backup_method ms).
Proof.
  unfold apply_methods, last_set. revert p.
  induction ms as [|m ms IH]; intros p; simpl.
  - rewrite orb_false_r. destruct p; reflexivity.
  - rewrite IH. destruct m; simpl; try reflexivity; now rewrite ?orb_true_r, ?orb_assoc.
Qed.

(** ** Step 1: the write-once CR3 *)

(** Every run of [freeze] starts with the read and the write of CR3 of
    step 1, writing the configured value, and never writes CR3 again: the
    verify step only reads it. *)
Theorem freeze_cr3_written_once hw fuel v p rf :
  firstn 2 (otrace (freeze hw fuel v p rf)) =
    [EvRead PWR_CR3;
     EvWrite PWR_CR3 (set_cr3 (cr3_supply_write v (supply_configuration p)) (ctl rf))] /\
  filter (fun e => is_write e && touches PWR_CR3 e) (skipn 2 (otrace (freeze hw fuel v p rf)))
    = [].
Proof.
  unfold freeze. rewrite bind_trace, modify_eq. cbv beta iota. simpl.
  split; [reflexivity|]. apply filter_emits_nil.
  unfold while_clear. emits_tac; try apply verify_emits; try apply transition_emits;
    reflexivity.
Qed.

(** Without the [smps] feature, [freeze] accesses CR3 only in step 1: one
    read and one write setting SCUEN and LDOEN and clearing BYPASS, whatever
    supply configuration the builder recorded. *)
Theorem freeze_no_smps_cr3_access hw fuel v p rf :
  feature_smps v = false ->
  filter (touches PWR_CR3) (otrace (freeze hw fuel v p rf)) =
    [EvRead PWR_CR3;
     EvWrite PWR_CR3 (set_cr3 (fun r => set_bypass false (set_ldoen true (set_scuen true r)))
                              (ctl rf))].
Proof.
  intros Hs. unfold freeze. rewrite bind_trace, modify_eq. cbv beta iota.
  unfold cr3_supply_write. rewrite Hs. simpl. f_equal. f_equal. apply filter_emits_nil.
  unfold while_clear. emits_tac; try apply transition_emits; reflexivity.
Qed.

Lemma freeze_no_smps_cr3_access_witness :
  feature_smps v_rm0433_v = false /\
  filter (touches PWR_CR3)
    (otrace (freeze faithful_hw 1 v_rm0433_v (Builder.smps constrain) (ready_regs 3))) =
    [EvRead PWR_CR3;
     EvWrite PWR_CR3 (set_cr3 (fun r => set_bypass false (set_ldoen true (set_scuen true r)))
                              ctl_reset)].
Proof.
  split; [reflexivity|].
  exact (freeze_no_smps_cr3_access faithful_hw 1 v_rm0433_v (Builder.smps constrain)
           (ready_regs 3) eq_refl).
Defined.

Lemma bind_state {A B} (m : M A) (k : A -> M B) rf :
  ostate (bind m k rf) =
  match m rf with
  | Done a rf1 _ => ostate (k a rf1)
  | o => ostate o
  end.
Proof. unfold bind. destruct (m rf); try reflexivity. apply prepend_state. Qed.

Lemma verify_keeps I p : keeps I (verify_supply_configuration p).
Proof.
  unfold verify_supply_configuration, cr3_field. destruct (supply_configuration p); keeps_tac.
Qed.

Lemma transition_keeps I hw fuel v s :
  (forall rf, I rf -> I (tick hw rf)) ->
  (forall rf b, I rf -> I (mkRegFile (hw_write hw D3CR (ctl rf) (set_d3cr_vos b (ctl rf)))
                                     (status rf))) ->
  keeps I (voltage_scaling_transition hw fuel v s).
Proof.
  intros Ht Hw. unfold voltage_scaling_transition, while_clear.
  destruct (vos_bits v s) as [b|]; [|apply keeps_panic].
  apply keeps_bind; [apply keeps_write; intros rf0; apply Hw | intros _].
  apply keeps_poll; [exact Ht | apply keeps_read].
Qed.

(** On hardware that latches what is written, whatever the outcome of
    [freeze] (completed, panicked in verify, or still polling), CR3 holds
    the value written by step 1: no later step changes it. *)
Theorem freeze_final_cr3 hw fuel v p rf :
  faithful hw ->
  cr3 (ctl (ostate (freeze hw fuel v p rf))) =
  cr3_supply_write v (supply_configuration p) (cr3 (ctl rf)).
Proof.
  intros Hf. unfold freeze. rewrite bind_state, modify_eq. cbv beta iota.
  set (c0 := cr3_supply_write v (supply_configuration p) (cr3 (ctl rf))).
  match goal with
  | |- cr3 (ctl (ostate (?k ?rf1))) = _ =>
      enough (K : keeps (fun r => cr3 (ctl r) = c0) k)
        by (apply K; simpl; rewrite Hf; reflexivity)
  end.
  unfold while_clear. keeps_tac.
  all: try apply verify_keeps.
  all: try (apply transition_keeps; [intros ? H0; exact H0|]).
  all: intros rf0; try (match goal with |- forall _ : Z, _ => intros ? end);
       intros H0; simpl; rewrite Hf; exact H0.
Qed.

Lemma freeze_final_cr3_witness :
  faithful faithful_hw /\
  cr3 (ctl (ostate (freeze faithful_hw 1 v_rm0468_smps_v (Builder.smps constrain)
                      (ready_regs 3)))) =
  set_ldoen false (set_sden true cr3_reset).
Proof.
  split; [intros ? ? ?; reflexivity|].
  exact (freeze_final_cr3 faithful_hw 1 v_rm0468_smps_v (Builder.smps constrain)
           (ready_regs 3) (fun _ _ _ => eq_refl)).
Defined.

(** ** Panics of [freeze] *)

Ltac avoids_any_tac :=
  repeat first
    [ apply avoids_bind; [|intros ?]
    | apply avoids_ret
    | apply avoids_assert; congruence
    | apply avoids_poll
    | apply avoids_read
    | apply avoids_modify
    | apply avoids_write
    | match goal with |- avoids _ (if ?b then _ else _) => destruct b eqn:? end ].

Lemma transition_avoids_any msg hw fuel v s :
  vos_bits v s <> None \/ msg <> not_implemented ->
  avoids msg (voltage_scaling_transition hw fuel v s).
Proof.
  intros H. unfold voltage_scaling_transition, while_clear.
  destruct (vos_bits v s) eqn:E; [avoids_any_tac|].
  apply avoids_panic. destruct H as [H|H]; [congruence | auto].
Qed.

Lemma freeze_avoids hw fuel v p msg :
  msg <> error \/ feature_smps v = false \/ supply_configuration p = Default ->
  avoids msg (freeze hw fuel v p).
Proof.
  intros H. unfold freeze, while_clear.
  apply avoids_bind; [apply avoids_modify | intros _].
  apply avoids_bind.
  { destruct (feature_smps v) eqn:Es; [|apply avoids_ret].
    destruct H as [H|[H|H]]; [| discriminate |].
    - unfold verify_supply_configuration, cr3_field.
      destruct (supply_configuration p); avoids_any_tac.
    - unfold verify_supply_configuration. rewrite H. apply avoids_ret. }
  intros _. apply avoids_bind; [apply avoids_poll, avoids_read | intros _]. cbv zeta.
  apply avoids_bind.
  { apply transition_avoids_any. left.
    unfold vos_bits. destruct (fam v), (target_vos p); discriminate. }
  intros _. avoids_any_tac. apply transition_avoids_any. left.
  match goal with H : has_vos0_transition v && _ = true |- _ =>
    unfold has_vos0_transition in H; destruct v as [[] sm rv]; simpl in H end;
  rewrite ?andb_false_r in *; try discriminate; discriminate.
Qed.

(** The only panic of [freeze] is the CR3 mismatch reported by
    [verify_supply_configuration], and it can only happen with the [smps]
    feature and a supply configuration chosen by the builder: no other
    step panics. *)
Theorem freeze_panic_only_verify hw fuel v p rf msg rf' tr :
  freeze hw fuel v p rf = Panic msg rf' tr ->
  msg = error /\ feature_smps v = true /\ supply_configuration p <> Default.
Proof.
  intros E.
  destruct (string_dec msg error) as [Hm|Hm];
    [| exfalso; exact (freeze_avoids hw fuel v p msg (or_introl Hm) rf rf' tr E)].
  split; [exact Hm|]. subst msg.
  destruct (feature_smps v) eqn:Es;
    [| exfalso; exact (freeze_avoids hw fuel v p error (or_intror (or_introl Es))
                         rf rf' tr E)].
  split; [reflexivity|]. intros Hd.
  exact (freeze_avoids hw fuel v p error (or_intror (or_intror Hd)) rf rf' tr E).
Qed.

Lemma freeze_panic_only_verify_witness :
  exists rf' tr,
    freeze faithful_hw 1 v_rm0399_smps_v (Builder.smps_1v8_feeds_ldo constrain)
      (ready_regs 3) = Panic error rf' tr /\
    (error = error /\ feature_smps v_rm0399_smps_v = true /\
     supply_configuration (Builder.smps_1v8_feeds_ldo constrain) <> Default).
Proof.
  do 2 eexists. split; [vm_compute; reflexivity|].
  exact (freeze_panic_only_verify faithful_hw 1 v_rm0399_smps_v
           (Builder.smps_1v8_feeds_ldo constrain) (ready_regs 3) error _ _
           ltac:(vm_compute; reflexivity)).
Defined.

(** ** SYSCFG and RCC accesses *)

Definition no_syscfg_write (e : event) : Prop :=
  (is_write e && touches SYSCFG_PWRCR e) = false.

Lemma sar_app t1 t2 :
  Forall no_syscfg_write t1 -> syscfg_after_rcc t2 -> syscfg_after_rcc (t1 ++ t2).
Proof.
  intros H1 H2 tr1 c tr2 E.
  apply app_eq_app in E. destruct E as [l [[E1 E2]|[E1 E2]]].
  - subst t1. destruct l as [|e l].
    + simpl in E2. rewrite app_nil_r in *.
      destruct (H2 [] c tr2 (eq_sym E2)) as [c' [[] _]].
    + injection E2 as He _. subst e. apply Forall_app in H1. destruct H1 as [_ H1].
      inversion H1. discriminate.
  - subst tr1. destruct (H2 l c tr2 E2) as [c' [Hin Hc]].
    exists c'. split; [apply in_or_app; right; exact Hin | exact Hc].
Qed.

Lemma sar_nil : syscfg_after_rcc [].
Proof. intros [|] c tr2 E; discriminate. Qed.

Lemma sar_emits {A} (m : M A) rf : emits no_syscfg_write m -> syscfg_after_rcc (otrace (m rf)).
Proof.
  intros H. rewrite <- (app_nil_r (otrace (m rf))). apply sar_app; [apply H | apply sar_nil].
Qed.

Lemma sar_rcc_first c rest :
  rcc_apb4enr_syscfgen c = true ->
  syscfg_after_rcc (EvRead RCC_APB4ENR :: EvWrite RCC_APB4ENR c :: rest).
Proof.
  intros Hc tr1 c0 tr2 E.
  destruct tr1 as [|e1 [|e2 tr1]]; simpl in E; try discriminate.
  injection E as _ <- _. exists c. split; [right; left; reflexivity | exact Hc].
Qed.

Lemma sar_bind {A B} (m : M A) (k : A -> M B) rf :
  emits no_syscfg_write m -> (forall a rf1, syscfg_after_rcc (otrace (k a rf1))) ->
  syscfg_after_rcc (otrace (bind m k rf)).
Proof.
  intros Hm Hk. rewrite bind_trace. specialize (Hm rf).
  destruct (m rf); simpl in *; try (apply sar_app; [exact Hm | apply Hk]);
    rewrite <- app_nil_r; apply sar_app; auto using sar_nil.
Qed.

Lemma bind_trace_prefix {A B} (m : M A) (k : A -> M B) rf :
  exists t, otrace (bind m k rf) = otrace (m rf) ++ t.
Proof.
  rewrite bind_trace. destruct (m rf); simpl; eauto;
    exists []; symmetry; apply app_nil_r.
Qed.

(** In every run of [freeze], the overdrive write of SYSCFG.PWRCR is only
    issued after the SYSCFG clock has been enabled in RCC.APB4ENR. *)
Theorem freeze_syscfg_after_rcc hw fuel v p rf :
  syscfg_after_rcc (otrace (freeze hw fuel v p rf)).
Proof.
  unfold freeze, while_clear.
  apply sar_bind; [emits_tac; reflexivity | intros ? ?].
  apply sar_bind; [destruct (feature_smps v); [apply verify_emits|]; emits_tac; reflexivity
                  | intros ? ?].
  apply sar_bind; [emits_tac; reflexivity | intros ? ?]. cbv zeta.
  apply sar_bind; [apply transition_emits; reflexivity | intros ? rfo].
  destruct (has_overdrive v && is_scale0 (target_vos p)); cbv beta iota.
  - match goal with |- syscfg_after_rcc (otrace (bind ?m ?k rfo)) =>
      destruct (bind_trace_prefix m k rfo) as [t1 ->] end.
    match goal with |- syscfg_after_rcc (otrace (bind ?m ?k rfo) ++ _) =>
      destruct (bind_trace_prefix m k rfo) as [t2 ->] end.
    rewrite modify_eq. apply sar_rcc_first. reflexivity.
  - apply sar_emits. emits_tac; try apply transition_emits; reflexivity.
Qed.

(** Unless the part has the overdrive step (revision V of RM0433/RM0399)
    and Scale0 was requested, [freeze] never accesses SYSCFG.PWRCR or
    RCC.APB4ENR. *)
Theorem freeze_no_syscfg_access hw fuel v p :
  has_overdrive v && is_scale0 (target_vos p) = false ->
  emits (fun e => (touches SYSCFG_PWRCR e || touches RCC_APB4ENR e) = false)
        (freeze hw fuel v p).
Proof.
  intros H. unfold freeze, while_clear.
  emits_tac; try apply verify_emits; try apply transition_emits; try reflexivity; congruence.
Qed.

Lemma freeze_no_syscfg_access_witness :
  has_overdrive v_rm0468_smps_v && is_scale0 (target_vos (Builder.vos0 constrain)) = false /\
  emits (fun e => (touches SYSCFG_PWRCR e || touches RCC_APB4ENR e) = false)
        (freeze faithful_hw 1 v_rm0468_smps_v (Builder.vos0 constrain)).
Proof.
  split; [reflexivity|].
  exact (freeze_no_syscfg_access faithful_hw 1 v_rm0468_smps_v (Builder.vos0 constrain)
           eq_refl).
Defined.

(** ** Registers after a completed [freeze] *)

Lemma keeps_done I {A} (m : M A) rf a rf' tr :
  keeps I m -> I rf -> m rf = Done a rf' tr -> I rf'.
Proof. intros K H E. specialize (K rf H). rewrite E in K. exact K. Qed.

Lemma modify_done_state hw r upd rf u rf' tr :
  faithful hw -> modify hw r upd rf = Done u rf' tr ->
  rf' = mkRegFile (upd (ctl rf)) (status rf).
Proof. intros Hf E. rewrite modify_eq, Hf in E. injection E as _ <- _. reflexivity. Qed.

Lemma verify_done_state p rf u rf' tr :
  verify_supply_configuration p rf = Done u rf' tr -> rf' = rf.
Proof. apply (keeps_done (fun r => r = rf)); [apply verify_keeps | reflexivity]. Qed.

Lemma poll_ctl hw n (cond : M bool) rf u rf' tr :
  (forall c0, keeps (fun r => ctl r = c0) cond) ->
  poll_loop hw n cond rf = Done u rf' tr -> ctl rf' = ctl rf.
Proof.
  intros Hc. apply (keeps_done (fun r => ctl r = ctl rf)); [|reflexivity].
  apply keeps_poll; [intros r0 H0; exact H0 | apply Hc].
Qed.

Lemma transition_done_ctl hw fuel v s rf u rf' tr :
  faithful hw -> voltage_scaling_transition hw fuel v s rf = Done u rf' tr ->
  exists b, vos_bits v s = Some b /\ ctl rf' = set_d3cr_vos b (ctl rf).
Proof.
  intros Hf E. unfold voltage_scaling_transition, while_clear in E.
  destruct (vos_bits v s) as [b|]; [|discriminate].
  exists b. split; [reflexivity|].
  unfold bind, write in E. simpl in E.
  destruct (poll_loop hw fuel _ _) eqn:Ep; simpl in E; try discriminate.
  injection E as _ <- _. destruct (poll_bit_final _ _ _ _ _ _ _ _ Ep) as [_ ->].
  simpl. apply Hf.
Qed.

(** On hardware that latches what is written, a completed [freeze] leaves
    CR1.DBP set, CR2.BREN set if the backup regulator was requested and
    unchanged otherwise, CR2.BRRDY set if it was requested, and D3CR.VOS
    holding the encoding of the returned scale, except after the overdrive
    step, where it holds the encoding of Scale1 and SYSCFG.PWRCR.ODEN and
    RCC.APB4ENR.SYSCFGEN are set. *)
Theorem freeze_final_registers hw fuel v p rf a rf' tr :
  faithful hw ->
  freeze hw fuel v p rf = Done a rf' tr ->
  cr1_dbp (ctl rf') = true /\
  cr2_bren (ctl rf') = backup_regulator p || cr2_bren (ctl rf) /\
  (backup_regulator p = true -> cr2_brrdy (status rf') = true) /\
  vos_bits v (if has_overdrive v && is_scale0 (target_vos p) then Scale1 else vos a)
    = Some (d3cr_vos (ctl rf')) /\
  (has_overdrive v && is_scale0 (target_vos p) = true ->
   syscfg_pwrcr_oden (ctl rf') = 1 /\ rcc_apb4enr_syscfgen (ctl rf') = true).
Proof.
  intros Hf H. unfold freeze, while_clear in H. crush_done.
  all: repeat match goal with
       | Hm : poll_loop _ _ (read _ _) _ = Done _ _ _ |- _ =>
           apply poll_bit_final in Hm; destruct Hm as [? ?]
       | Hm : poll_loop _ _ _ _ = Done _ _ _ |- _ =>
           apply poll_ctl in Hm; [|intros c0; keeps_tac]
       | Hm : voltage_scaling_transition _ _ _ _ _ = Done _ _ _ |- _ =>
           apply (transition_done_ctl _ _ _ _ _ _ _ _ Hf) in Hm;
           destruct Hm as (? & ? & ?)
       | Hm : verify_supply_configuration _ _ = Done _ _ _ |- _ =>
           apply verify_done_state in Hm; subst
       | Hm : modify _ _ _ _ = Done _ _ _ |- _ =>
           apply (modify_done_state _ _ _ _ _ _ _ Hf) in Hm; subst
       end.
  all: simpl in *.
  all: repeat match goal with
       | Hc : ctl ?x = _ |- context [ctl ?x] => rewrite Hc; simpl
       end.
  all: destruct (backup_regulator p); simpl in *; try discriminate.
  all: destruct v as [[] [] []], (target_vos p);
       unfold has_overdrive, has_vos0_transition in *; simpl in *;
       try discriminate; try congruence; repeat split; auto.
  all: try discriminate.
Qed.

Lemma freeze_final_registers_witness :
  exists a rf' tr,
    freeze faithful_hw 1 v_rm0399_smps_v (Builder.backup_regulator (Builder.vos0 constrain))
      (ready_regs 3) = Done a rf' tr /\
    cr1_dbp (ctl rf') = true /\ cr2_bren (ctl rf') = true /\ d3cr_vos (ctl rf') = 3 /\
    syscfg_pwrcr_oden (ctl rf') = 1.
Proof.
  do 3 eexists. split; [vm_compute; reflexivity|].
  pose proof (freeze_final_registers faithful_hw 1 v_rm0399_smps_v
                (Builder.backup_regulator (Builder.vos0 constrain)) (ready_regs 3) _ _ _
                (fun _ _ _ => eq_refl) ltac:(vm_compute; reflexivity))
    as (H1 & H2 & _ & _ & H5).
  destruct (H5 eq_refl) as [H6 _].
  split; [exact H1|]. split; [exact H2|]. split; [vm_compute; reflexivity | exact H6].
Defined.

(** ** Verify against the step-1 write *)

Lemma verify_step1_outcome v p rf r :
  feature_smps v = true ->
  cr3 (ctl rf) = cr3_supply_write v (supply_configuration p) r ->
  match supply_configuration p with
  | SMPSFeedsIntoLDO1V8 | SMPSFeedsIntoLDO2V5 =>
      exists tr, verify_supply_configuration p rf = Panic error rf tr
  | _ => exists tr, verify_supply_configuration p rf = Done tt rf tr
  end.
Proof.
  intros Hs Hc. unfold verify_supply_configuration, cr3_field, cr3_supply_write in *.
  rewrite Hs in Hc.
  destruct (supply_configuration p); unfold bind, read, assert, ret, panic; simpl;
    repeat (rewrite Hc; simpl); eexists; reflexivity.
Qed.



(** On hardware that latches what is written, [freeze] never panics
    unless the builder selected one of the two SMPS-feeds-LDO modes: for
    every other supply configuration the value written in step 1 passes
    the verify step. *)
Theorem freeze_faithful_no_panic hw fuel v p rf msg rf' tr :
  faithful hw ->
  supply_configuration p <> SMPSFeedsIntoLDO1V8 ->
  supply_configuration p <> SMPSFeedsIntoLDO2V5 ->
  freeze hw fuel v p rf <> Panic msg rf' tr.
Proof.
  intros Hf H1 H2 E.
  destruct (string_dec msg error) as [Hm|Hm];
    [subst msg | exact (freeze_avoids hw fuel v p msg (or_introl Hm) rf rf' tr E)].
  destruct (feature_smps v) eqn:Hs;
    [| exact (freeze_avoids hw fuel v p error (or_intror (or_introl Hs)) rf rf' tr E)].
  unfold freeze in E. unfold bind at 1 in E. rewrite modify_eq, Hf in E.
  cbv beta iota in E. rewrite Hs in E.
  set (rf1 := mkRegFile _ (status rf)) in E.
  assert (Hv : exists tr1, verify_supply_configuration p rf1 = Done tt rf1 tr1).
  { pose proof (verify_step1_outcome v p rf1 (cr3 (ctl rf)) Hs eq_refl) as H.
    destruct (supply_configuration p); congruence || exact H. }
  destruct Hv as [tr1 Hv].
  unfold bind at 1 in E. rewrite Hv in E.
  match type of E with
  | prepend _ (prepend _ (bind ?m ?k rf1)) = _ =>
      assert (A : avoids error (bind m k))
  end.
  { unfold while_clear.
    apply avoids_bind; [apply avoids_poll, avoids_read | intros _]. cbv zeta.
    apply avoids_bind.
    { apply transition_avoids_any. left.
      unfold vos_bits. destruct (fam v), (target_vos p); discriminate. }
    intros _. avoids_any_tac. apply transition_avoids_any. left.
    match goal with H : has_vos0_transition v && _ = true |- _ =>
      unfold has_vos0_transition in H; destruct v as [[] sm rv]; simpl in H end;
    rewrite ?andb_false_r in *; try discriminate; discriminate. }
  destruct (bind _ _ rf1) eqn:Eb; simpl in E; try discriminate.
  injection E as Hmsg _ _. subst. exact (A rf1 _ _ Eb).
Qed.

Lemma freeze_faithful_no_panic_witness :
  faithful faithful_hw /\
  supply_configuration (Builder.bypass constrain) <> SMPSFeedsIntoLDO1V8 /\
  supply_configuration (Builder.bypass constrain) <> SMPSFeedsIntoLDO2V5 /\
  (forall msg rf' tr,
     freeze faithful_hw 1 v_rm0399_smps_v (Builder.bypass constrain) (ready_regs 3)
     <> Panic msg rf' tr).
Proof.
  split; [intros ? ? ?; reflexivity|].
  split; [discriminate|]. split; [discriminate|].
  intros msg rf' tr.
  exact (freeze_faithful_no_panic faithful_hw 1 v_rm0399_smps_v (Builder.bypass constrain)
           (ready_regs 3) msg rf' tr (fun _ _ _ => eq_refl) ltac:(discriminate)
           ltac:(discriminate)).
Defined.
